(** * Stroke triage rules engine: [assessment/models.py]

    A shallow embedding of the derived-value methods of [StrokeAssessment]
    (time since last-known-well, treatment windows, NIHSS and RACE scores,
    ASPECTS interpretation, tPA eligibility and dose, thrombectomy candidacy)
    together with the properties stated about them.

    Python integers are [Z]; nullable model fields are [option]; text is
    [string]; Python floats are IEEE-754 binary64 values, taken from the
    Standard Library's [SpecFloat] at precision 53 and maximal exponent 1024. *)

From Stdlib Require Import ZArith List String Bool Lia.
From Stdlib Require Import Floats.SpecFloat.
Import ListNotations.

Local Open Scope Z_scope.

(** ** Python floats *)

Module PyFloat.

Definition prec : Z := 53.
Definition emax : Z := 1024.

Definition float := spec_float.

(** [a / b] on Python integers with [0 < b]: the quotient correctly
    rounded to the nearest binary64 value (ties to even). *)
Definition int_truediv (a b : Z) : float :=
  match a with
  | Z0 => S754_zero false
  | _ =>
      let '(q, e, l) := SFdiv_core_binary prec emax (Z.abs a) 0 b 0 in
      binary_round_aux prec emax (a <? 0) q e l
  end.

(** An integer literal used where a float is expected. *)
Definition of_int (n : Z) : float := binary_normalize prec emax n 0 false.

Definition mul : float -> float -> float := SFmul prec emax.
Definition div : float -> float -> float := SFdiv prec emax.
Definition ltb : float -> float -> bool := SFltb.
Definition leb : float -> float -> bool := SFleb.

(** The builtin [min(a, b)]: [b] replaces [a] only when [b < a]. *)
Definition min (a b : float) : float := if ltb b a then b else a.

(** Round-half-even of [n / d] to an integer, for [0 <= n] and [0 < d]. *)
Definition div_half_even (n d : Z) : Z :=
  let q := n / d in
  let r := n mod d in
  match 2 * r ?= d with
  | Lt => q
  | Gt => q + 1
  | Eq => if Z.even q then q else q + 1
  end.

(** The number of hundredths nearest to the exact value [m * 2^e]. *)
Definition hundredths (m : positive) (e : Z) : Z :=
  match e with
  | Zneg k => div_half_even (Zpos m * 100) (Z.pow_pos 2 k)
  | _ => Zpos m * 100 * 2 ^ e
  end.

(** The builtin [round(x, 2)] on a float: infinities and NaN round to
    themselves, zeros keep their sign; a finite value is converted to the
    decimal with two places nearest to its exact binary value, and that
    decimal is converted back to the nearest float. *)
Definition round2 (x : float) : float :=
  match x with
  | S754_finite s m e =>
      match hundredths m e with
      | Z0 => S754_zero s
      | k =>
          let '(q, e', l) := SFdiv_core_binary prec emax k 0 100 0 in
          binary_round_aux prec emax s q e' l
      end
  | _ => x
  end.

(** [x] is a zero, a finite value or an infinity of sign [s]
    ([true]: negative); a NaN has no sign. *)
Definition signed (s : bool) (x : float) : Prop :=
  match x with
  | S754_zero s' | S754_infinity s' | S754_finite s' _ _ => s' = s
  | S754_nan => False
  end.

End PyFloat.

(** ** Python values used by the models *)

(** A timezone-aware [datetime] is an instant: microseconds since the epoch.
    Every [datetime] is truthy. *)
Definition datetime := Z.
Definition datetime_bool (_ : datetime) : bool := true.

(** A [timedelta] is a whole number of microseconds; it is truthy exactly
    when it is not zero. *)
Definition timedelta := Z.
Definition timedelta_bool (d : timedelta) : bool := negb (d =? 0).

(** [timedelta.total_seconds()]: microseconds divided by [10**6]. *)
Definition total_seconds (d : timedelta) : PyFloat.float :=
  PyFloat.int_truediv d 1000000.

(** A finite [Decimal]: [dec_digits / 10 ^ dec_places].  The negative zero
    of [Decimal] is not among these values. *)
Record Decimal := mkDecimal { dec_digits : Z; dec_places : nat }.

(** [float(d)]: the decimal correctly rounded to a float. *)
Definition float_of_Decimal (d : Decimal) : PyFloat.float :=
  PyFloat.int_truediv (dec_digits d) (10 ^ Z.of_nat (dec_places d)).

Local Open Scope string_scope.
Local Open Scope Z_scope.

(** ** [class Patient]

    The fields the derived methods read.  [weight_kg], [systolic_bp] and
    [diastolic_bp] are tested with [is not None] by the methods, hence
    optional here. *)
Record Patient := mkPatient {
  arrival_time : datetime;
  last_known_well_time : option datetime;
  age : Z;
  weight_kg : option Decimal;
  systolic_bp : option Z;
  diastolic_bp : option Z
}.

(** ** [class StrokeAssessment]

    [assessment_time] is the non-null [auto_now_add] column, set when the
    record is created: every stored assessment carries one, and the test on
    it in [calculate_time_since_lkw] is the truthiness of a [datetime].
    [lvo_status] is a [CharField]: any text. *)
Record StrokeAssessment := mkStrokeAssessment {
  patient : Patient;
  assessment_time : datetime;
  nihss_1a_loc_alert : option Z;
  nihss_1b_loc_questions : option Z;
  nihss_1c_loc_commands : option Z;
  nihss_2_best_gaze : option Z;
  nihss_3_visual_field : option Z;
  nihss_4_facial_palsy : option Z;
  nihss_5a_motor_left_arm : option Z;
  nihss_5b_motor_right_arm : option Z;
  nihss_6a_motor_left_leg : option Z;
  nihss_6b_motor_right_leg : option Z;
  nihss_7_limb_ataxia : option Z;
  nihss_8_sensory : option Z;
  nihss_9_best_language : option Z;
  nihss_10_dysarthria : option Z;
  nihss_11_extinction_inattention : option Z;
  hemorrhage_present : bool;
  aspects_score : option Z;
  lvo_status : string;
  recent_surgery : bool;
  prior_stroke_head_trauma : bool;
  gi_urinary_hemorrhage : bool;
  low_platelets : bool;
  elevated_inr : bool;
  current_anticoagulant_use : bool
}.

(** ** Temporal utilities *)

Definition calculate_time_since_lkw (self : StrokeAssessment) : option timedelta :=
  match last_known_well_time (patient self) with
  | Some lkw =>
      if datetime_bool lkw && datetime_bool (assessment_time self)
      then Some (assessment_time self - lkw)
      else None
  | None => None
  end.

(** The divisor [3600], converted to a float by the division. *)
Definition f3600 : PyFloat.float := Eval vm_compute in PyFloat.of_int 3600.

Definition get_time_since_lkw_hours (self : StrokeAssessment) : option PyFloat.float :=
  match calculate_time_since_lkw self with
  | Some time_delta =>
      if timedelta_bool time_delta
      then Some (PyFloat.round2 (PyFloat.div (total_seconds time_delta) f3600))
      else None
  | None => None
  end.

(** ** Window classifiers *)

(** The literals [4.5] and [6]. *)
Definition f4_5 : PyFloat.float := Eval vm_compute in PyFloat.int_truediv 45 10.
Definition f6 : PyFloat.float := Eval vm_compute in PyFloat.of_int 6.

Definition is_within_tpa_window (self : StrokeAssessment) : bool :=
  match get_time_since_lkw_hours self with
  | Some hours_since_lkw => if PyFloat.leb hours_since_lkw f4_5 then true else false
  | None => false
  end.

Definition is_within_thrombectomy_window (self : StrokeAssessment) : bool :=
  match get_time_since_lkw_hours self with
  | Some hours_since_lkw => if PyFloat.leb hours_since_lkw f6 then true else false
  | None => false
  end.

(** ** NIHSS total *)

Definition nihss_components (self : StrokeAssessment) : list (option Z) :=
  [ nihss_1a_loc_alert self;
    nihss_1b_loc_questions self;
    nihss_1c_loc_commands self;
    nihss_2_best_gaze self;
    nihss_3_visual_field self;
    nihss_4_facial_palsy self;
    nihss_5a_motor_left_arm self;
    nihss_5b_motor_right_arm self;
    nihss_6a_motor_left_leg self;
    nihss_6b_motor_right_leg self;
    nihss_7_limb_ataxia self;
    nihss_8_sensory self;
    nihss_9_best_language self;
    nihss_10_dysarthria self;
    nihss_11_extinction_inattention self ].

(** The [for] loop: add each component to the running total, leaving with
    [None] at the first missing one. *)
Fixpoint nihss_loop (components : list (option Z)) (total_score : Z) : option Z :=
  match components with
  | [] => Some total_score
  | Some component :: rest => nihss_loop rest (total_score + component)
  | None :: _ => None
  end.

Definition calculate_nihss_total_score (self : StrokeAssessment) : option Z :=
  nihss_loop (nihss_components self) 0.

(** ** RACE score *)

(** The pair of statements
    [if v >= 2: score = 1] and [if v >= 4: score = 2]
    applied to a motor score initialised to [score]. *)
Definition motor_steps (v score : Z) : Z :=
  let score := if v >=? 2 then 1 else score in
  if v >=? 4 then 2 else score.

Definition is_None {A : Type} (c : option A) : bool :=
  match c with
  | None => true
  | Some _ => false
  end.

Definition required_race_components (self : StrokeAssessment) : list (option Z) :=
  [ nihss_4_facial_palsy self;
    nihss_5a_motor_left_arm self; nihss_5b_motor_right_arm self;
    nihss_6a_motor_left_leg self; nihss_6b_motor_right_leg self;
    nihss_2_best_gaze self;
    nihss_9_best_language self;
    nihss_11_extinction_inattention self ].

Definition calculate_race_score (self : StrokeAssessment) : option Z :=
  let race_score := 0 in
  (* Facial Palsy (NIHSS 4) *)
  let race_score :=
    match nihss_4_facial_palsy self with
    | Some v =>
        if v =? 1 then race_score + 1
        else if v >=? 2 then race_score + 2
        else race_score
    | None => race_score
    end in
  (* Arm Motor (NIHSS 5a/5b) *)
  let arm_motor_score := 0 in
  let arm_motor_score :=
    match nihss_5a_motor_left_arm self, nihss_5b_motor_right_arm self with
    | Some l, Some r => let worse_arm := Z.max l r in motor_steps worse_arm arm_motor_score
    | Some l, None => motor_steps l arm_motor_score
    | None, Some r => motor_steps r arm_motor_score
    | None, None => arm_motor_score
    end in
  let race_score := race_score + arm_motor_score in
  (* Leg Motor (NIHSS 6a/6b) *)
  let leg_motor_score := 0 in
  let leg_motor_score :=
    match nihss_6a_motor_left_leg self, nihss_6b_motor_right_leg self with
    | Some l, Some r => let worse_leg := Z.max l r in motor_steps worse_leg leg_motor_score
    | Some l, None => motor_steps l leg_motor_score
    | None, Some r => motor_steps r leg_motor_score
    | None, None => leg_motor_score
    end in
  let race_score := race_score + leg_motor_score in
  (* Gaze (NIHSS 2) *)
  let race_score :=
    match nihss_2_best_gaze self with
    | Some v =>
        if v =? 1 then race_score + 1
        else if v =? 2 then race_score + 2
        else race_score
    | None => race_score
    end in
  (* Aphasia (NIHSS 9) *)
  let race_score :=
    match nihss_9_best_language self with
    | Some v => if v >=? 2 then race_score + 2 else race_score
    | None => race_score
    end in
  (* Agnosia (NIHSS 11) *)
  let race_score :=
    match nihss_11_extinction_inattention self with
    | Some v => if v >=? 1 then race_score + 1 else race_score
    | None => race_score
    end in
  if existsb is_None (required_race_components self) then None
  else Some race_score.

(** ** ASPECTS interpretation *)

Definition get_aspects_interpretation (self : StrokeAssessment) : string :=
  match aspects_score self with
  | None => "ASPECTS score not available."
  | Some score =>
      if score =? 10 then "Normal CT scan (no early ischemic changes)."
      else if score >=? 8 then "Mild early ischemic changes."
      else if score >=? 5 then "Moderate early ischemic changes."
      else if score >=? 0 then "Severe early ischemic changes (significant infarction)."
      else "Invalid ASPECTS score."
  end.

(** ** tPA eligibility and dose *)

(** [x is not None and x > bound] on an optional integer. *)
Definition known_above (x : option Z) (bound : Z) : bool :=
  match x with
  | Some v => v >? bound
  | None => false
  end.

Definition get_tpa_eligibility_status (self : StrokeAssessment) : string :=
  if negb (is_within_tpa_window self) then
    "Not Eligible (Outside Time Window)"
  else if hemorrhage_present self then
    "Contraindicated (Intracranial Hemorrhage)"
  else if known_above (systolic_bp (patient self)) 185 then
    "Contraindicated (BP > 185 mmHg)"
  else if known_above (diastolic_bp (patient self)) 110 then
    "Contraindicated (BP > 110 mmHg)"
  else if recent_surgery self || prior_stroke_head_trauma self
          || gi_urinary_hemorrhage self then
    "Contraindicated (Major Bleeding Risk Factors)"
  else if low_platelets self then
    "Contraindicated (Low Platelets)"
  else if elevated_inr self then
    "Contraindicated (Elevated INR)"
  else if current_anticoagulant_use self then
    "Contraindicated (Current Anticoagulant Use)"
  else
    "Potentially Eligible".

(** The literals [0.9] and [90.0]. *)
Definition f0_9 : PyFloat.float := Eval vm_compute in PyFloat.int_truediv 9 10.
Definition f90 : PyFloat.float := Eval vm_compute in PyFloat.of_int 90.

Definition calculate_tpa_dose (self : StrokeAssessment) : option PyFloat.float :=
  match weight_kg (patient self) with
  | Some w =>
      let calculated_dose := PyFloat.mul (float_of_Decimal w) f0_9 in
      Some (PyFloat.min calculated_dose f90)
  | None => None
  end.

(** ** Thrombectomy candidacy *)

Definition get_thrombectomy_candidacy (self : StrokeAssessment) : string :=
  if negb (is_within_thrombectomy_window self) then
    "Not Candidate (Outside Time Window)"
  else if hemorrhage_present self then
    "Not Candidate (Intracranial Hemorrhage)"
  else if negb (lvo_status self =? "PRESENT")%string then
    "Not Candidate (No LVO Detected)"
  else
    match aspects_score self with
    | None => "Pending (ASPECTS Score Missing)"
    | Some score =>
        if score <? 6 then "Not Candidate (ASPECTS < 6)"
        else "Potentially Candidate"
    end.

(** ** The precedence chains as the specification words them

    An ordered list of (predicate, result) pairs evaluated in sequence: the
    first pair whose predicate holds gives the result, and [otherwise] is the
    result when none does. *)

Definition rule : Type := (StrokeAssessment -> bool) * string.

Fixpoint first_match (rules : list rule) (otherwise : string)
    (self : StrokeAssessment) : string :=
  match rules with
  | [] => otherwise
  | (applies, result) :: rest =>
      if applies self then result else first_match rest otherwise self
  end.

Definition tpa_rules : list rule :=
  [ (fun a => negb (is_within_tpa_window a),
      "Not Eligible (Outside Time Window)");
    (fun a => hemorrhage_present a,
      "Contraindicated (Intracranial Hemorrhage)");
    (fun a => match systolic_bp (patient a) with
              | Some bp => 185 <? bp
              | None => false
              end,
      "Contraindicated (BP > 185 mmHg)");
    (fun a => match diastolic_bp (patient a) with
              | Some bp => 110 <? bp
              | None => false
              end,
      "Contraindicated (BP > 110 mmHg)");
    (fun a => existsb (fun flag => flag a)
                [recent_surgery; prior_stroke_head_trauma; gi_urinary_hemorrhage],
      "Contraindicated (Major Bleeding Risk Factors)");
    (fun a => low_platelets a,
      "Contraindicated (Low Platelets)");
    (fun a => elevated_inr a,
      "Contraindicated (Elevated INR)");
    (fun a => current_anticoagulant_use a,
      "Contraindicated (Current Anticoagulant Use)") ].

Definition thrombectomy_rules : list rule :=
  [ (fun a => negb (is_within_thrombectomy_window a),
      "Not Candidate (Outside Time Window)");
    (fun a => hemorrhage_present a,
      "Not Candidate (Intracranial Hemorrhage)");
    (fun a => if string_dec (lvo_status a) "PRESENT" then false else true,
      "Not Candidate (No LVO Detected)");
    (fun a => match aspects_score a with
              | None => true
              | Some _ => false
              end,
      "Pending (ASPECTS Score Missing)");
    (fun a => match aspects_score a with
              | Some score => score <? 6
              | None => false
              end,
      "Not Candidate (ASPECTS < 6)") ].

(** ** Sample records *)

(** The value [4.51]. *)
Definition f4_51 : PyFloat.float := Eval vm_compute in PyFloat.int_truediv 451 100.

(** The value [45.0]. *)
Definition f45 : PyFloat.float := Eval vm_compute in PyFloat.of_int 45.

Definition one_hour : timedelta := 3600000000.

(** A patient of 80 kg with blood pressure 150/90. *)
Definition a_patient (lkw : option datetime) : Patient :=
  mkPatient 0 lkw 70 (Some (mkDecimal 8000 2)) (Some 150) (Some 90).

(** An assessment with every NIHSS item scored 0 and no contraindication. *)
Definition an_assessment (p : Patient) (time : datetime) (hemorrhage : bool)
    (aspects : option Z) (lvo : string) : StrokeAssessment :=
  mkStrokeAssessment p time
    (Some 0) (Some 0) (Some 0) (Some 0) (Some 0)
    (Some 0) (Some 0) (Some 0) (Some 0) (Some 0)
    (Some 0) (Some 0) (Some 0) (Some 0) (Some 0)
    hemorrhage aspects lvo
    false false false false false false.

(** Last known well three hours before the assessment. *)
Definition seen_at_3h : StrokeAssessment :=
  an_assessment (a_patient (Some 0)) (3 * one_hour) false (Some 7) "PRESENT".

(** Last known well at the very instant of the assessment. *)
Definition seen_at_onset : StrokeAssessment :=
  an_assessment (a_patient (Some one_hour)) one_hour false (Some 7) "PRESENT".

(** Last known well recorded one hour after the assessment. *)
Definition seen_before_lkw : StrokeAssessment :=
  an_assessment (a_patient (Some one_hour)) 0 false (Some 7) "PRESENT".

(** No last-known-well time, hemorrhage on imaging. *)
Definition bleed_no_lkw : StrokeAssessment :=
  an_assessment (a_patient None) one_hour true None "NOT_ASSESSED".

(** Within the window, hemorrhage on imaging, no LVO, ASPECTS 3. *)
Definition bleed_no_lvo : StrokeAssessment :=
  an_assessment (a_patient (Some 0)) one_hour true (Some 3) "ABSENT".

(** Within the window, no hemorrhage, no LVO, ASPECTS 3. *)
Definition no_bleed_no_lvo : StrokeAssessment :=
  an_assessment (a_patient (Some 0)) one_hour false (Some 3) "ABSENT".

(** Last known well 4 h 30 min 00 s before the assessment: 4.50 hours. *)
Definition seen_at_4_50h : StrokeAssessment :=
  an_assessment (a_patient (Some 0)) 16200000000 false (Some 7) "PRESENT".

(** Last known well 4 h 30 min 36 s before the assessment: 4.51 hours. *)
Definition seen_at_4_51h : StrokeAssessment :=
  an_assessment (a_patient (Some 0)) 16236000000 false (Some 7) "PRESENT".

(** Patients of 120 kg, of 50 kg, and one whose weight is not recorded. *)
Definition weighing (w : option Decimal) : StrokeAssessment :=
  an_assessment (mkPatient 0 (Some 0) 70 w (Some 150) (Some 90))
    one_hour false (Some 7) "PRESENT".

(** Every RACE item at the worst value of its NIHSS scale. *)
Definition worst_deficits : StrokeAssessment :=
  mkStrokeAssessment (a_patient (Some 0)) one_hour
    (Some 0) (Some 0) (Some 0) (Some 2) (Some 0)
    (Some 3) (Some 4) (Some 4) (Some 4) (Some 4)
    (Some 0) (Some 0) (Some 3) (Some 0) (Some 2)
    false (Some 7) "PRESENT"
    false false false false false false.

(** An ASPECTS value above the scale. *)
Definition aspects_eleven : StrokeAssessment :=
  an_assessment (a_patient (Some 0)) one_hour false (Some 11) "PRESENT".

(** ** Recommendation composer *)

Definition get_bp_management_target (self : StrokeAssessment) : string :=
  let tpa_eligibility := get_tpa_eligibility_status self in
  let thrombectomy_candidacy := get_thrombectomy_candidacy self in
  if (tpa_eligibility =? "Potentially Eligible")%string then
    "Target BP < 185/110 mmHg (for tPA)"
  else if (thrombectomy_candidacy =? "Potentially Candidate")%string then
    "Target BP < 185/110 mmHg (for thrombectomy)"
  else
    "Target BP < 220/120 mmHg (permissive hypertension)".

Definition get_stroke_center_recommendation (self : StrokeAssessment) : string :=
  let thrombectomy_candidacy := get_thrombectomy_candidacy self in
  let nihss_score := calculate_nihss_total_score self in
  if (thrombectomy_candidacy =? "Potentially Candidate")%string then
    "Comprehensive Stroke Center (CSC) recommended for thrombectomy."
  else if match nihss_score with
          | Some score => score >=? 5
          | None => false
          end then
    "Primary Stroke Center (PSC) recommended for IV thrombolysis and stroke care."
  else
    "Acute Stroke Ready Hospital (ASRH) or general hospital for initial stabilization.".

(** The operator [sub in s] on text: [sub] occurs in [s] at some position. *)
Fixpoint contains (sub s : string) : bool :=
  if String.prefix sub s then true
  else match s with
       | EmptyString => false
       | String _ rest => contains sub rest
       end.

Definition get_transfer_recommendation (self : StrokeAssessment) : string :=
  let center_recommendation := get_stroke_center_recommendation self in
  if contains "Comprehensive Stroke Center (CSC)" center_recommendation then
    "Consider immediate transfer to a Comprehensive Stroke Center (CSC) for advanced care."
  else if contains "Primary Stroke Center (PSC)" center_recommendation then
    "Consider transfer to a Primary Stroke Center (PSC) if not at one."
  else
    "No immediate transfer recommended based on current findings.".

(** ** Critical time targets *)

(** [timedelta(minutes=n)]. *)
Definition timedelta_minutes (n : Z) : timedelta := n * 60000000.

(** The fields of a [datetime] (year down to microsecond) are those of its
    own clock, and [+] and [strftime] work on them.  [wall_clock] is that
    reading, in microseconds since 0001-01-01 00:00, of the instant [t]
    carried with a tzinfo [utcoffset] ahead of UTC (zero for a datetime in
    UTC); the epoch, 1970-01-01, is day 719162 of that count. *)
Definition epoch_wall : Z := 62135596800000000.

Definition wall_clock (utcoffset : timedelta) (t : datetime) : Z :=
  t + utcoffset + epoch_wall.

(** The reading that follows [datetime.max], 9999-12-31 23:59:59.999999:
    3652059 days. *)
Definition wall_end : Z := 315537897600000000.

(** [datetime + timedelta] on the reading of a datetime: the sum, or
    [None] for the [OverflowError] raised when the result leaves the years
    1 to 9999. *)
Definition wall_add (w : Z) (d : timedelta) : option Z :=
  let r := w + d in
  if (0 <=? r) && (r <? wall_end) then Some r else None.

(** The [hour] and [minute] fields of a reading. *)
Definition hour_of (w : Z) : Z := (w / 3600000000) mod 24.
Definition minute_of (w : Z) : Z := (w / 60000000) mod 60.

(** A number below 100 written with two decimal digits. *)
Definition two_digits (n : Z) : string :=
  String (Ascii.ascii_of_nat (48 + Z.to_nat (n / 10)))
    (String (Ascii.ascii_of_nat (48 + Z.to_nat (n mod 10))) EmptyString).

(** [strftime('%H:%M')] of a reading. *)
Definition strftime_HM (w : Z) : string :=
  (two_digits (hour_of w) ++ ":" ++ two_digits (minute_of w))%string.

(** A [dict] with text keys, in insertion order. *)
Definition dict : Type := list (string * string).

(** [d[key] = value]: replaces the value of a key already present, adds the
    key at the end otherwise. *)
Fixpoint dict_set (d : dict) (key value : string) : dict :=
  match d with
  | [] => [(key, value)]
  | (k, v) :: rest =>
      if (k =? key)%string then (k, value) :: rest
      else (k, v) :: dict_set rest key value
  end.

(** [get_critical_time_targets], for an [arrival_time] whose tzinfo is
    [utcoffset] ahead of UTC.  [None] stands for the [OverflowError] of one
    of the three additions, which the method does not catch. *)
Definition get_critical_time_targets (utcoffset : timedelta)
    (self : StrokeAssessment) : option dict :=
  let targets : dict := [] in
  if datetime_bool (arrival_time (patient self)) then
    let arrival := wall_clock utcoffset (arrival_time (patient self)) in
    match wall_add arrival (timedelta_minutes 20) with
    | None => None
    | Some door_to_ct =>
        let targets :=
          dict_set targets "Door-to-CT Target" (strftime_HM door_to_ct) in
        match wall_add arrival (timedelta_minutes 60) with
        | None => None
        | Some door_to_needle =>
            let targets :=
              dict_set targets "Door-to-Needle (tPA) Target"
                (strftime_HM door_to_needle) in
            match wall_add arrival (timedelta_minutes 90) with
            | None => None
            | Some door_to_groin =>
                let targets :=
                  dict_set targets "Door-to-Groin Puncture Target"
                    (strftime_HM door_to_groin) in
                Some targets
            end
        end
    end
  else Some targets.

(** ** More sample records *)

(** Arrival at 23:50:30 of some day (day 19000 after the epoch). *)
Definition late_arrival : StrokeAssessment :=
  an_assessment
    (mkPatient (19000 * 86400000000 + 85830000000) (Some 0) 70
       (Some (mkDecimal 8000 2)) (Some 150) (Some 90))
    one_hour false (Some 7) "PRESENT".

(** Arrival 89 minutes before the last moment a [datetime] can hold
    (9999-12-31 22:30:59.999999 UTC). *)
Definition arrival_near_datetime_max : StrokeAssessment :=
  an_assessment
    (mkPatient (253402300800000000 - 89 * 60000000 - 1) (Some 0) 70
       (Some (mkDecimal 8000 2)) (Some 150) (Some 90))
    one_hour false (Some 7) "PRESENT".

(** An examination with a different score on each item. *)
Definition distinct_scores : StrokeAssessment :=
  mkStrokeAssessment (a_patient (Some 0)) one_hour
    (Some 1) (Some 2) (Some 4) (Some 8) (Some 16)
    (Some 32) (Some 64) (Some 128) (Some 256) (Some 512)
    (Some 1024) (Some 2048) (Some 4096) (Some 8192) (Some 16384)
    false (Some 7) "PRESENT"
    false false false false false false.

(** The instant 21:50:10 UTC of the following day: 23:50:10 on a clock two
    hours ahead of UTC. *)
Definition late_arrival_next_day : StrokeAssessment :=
  an_assessment
    (mkPatient (19001 * 86400000000 + 78610000000) (Some 0) 70
       (Some (mkDecimal 8000 2)) (Some 150) (Some 90))
    one_hour false (Some 7) "PRESENT".

(** A severe but incomplete examination (sensory item not scored), no LVO. *)
Definition severe_incomplete : StrokeAssessment :=
  mkStrokeAssessment (a_patient (Some 0)) one_hour
    (Some 3) (Some 2) (Some 2) (Some 2) (Some 3)
    (Some 3) (Some 4) (Some 4) (Some 4) (Some 4)
    (Some 2) None (Some 3) (Some 2) (Some 2)
    false (Some 7) "ABSENT"
    false false false false false false.

(** Every NIHSS item at the top of its scale: total 42. *)
Definition worst_everything : StrokeAssessment :=
  mkStrokeAssessment (a_patient (Some 0)) one_hour
    (Some 3) (Some 2) (Some 2) (Some 2) (Some 3)
    (Some 3) (Some 4) (Some 4) (Some 4) (Some 4)
    (Some 2) (Some 2) (Some 3) (Some 2) (Some 2)
    false (Some 7) "PRESENT"
    false false false false false false.

(** As [worst_deficits], with the gaze item entered as 3. *)
Definition gaze_three : StrokeAssessment :=
  mkStrokeAssessment (a_patient (Some 0)) one_hour
    (Some 0) (Some 0) (Some 0) (Some 3) (Some 0)
    (Some 3) (Some 4) (Some 4) (Some 4) (Some 4)
    (Some 0) (Some 0) (Some 3) (Some 0) (Some 2)
    false (Some 7) "PRESENT"
    false false false false false false.

(** * Properties *)

(** ** Floats: the sign of a rounded result *)

Section FloatSign.

Import PyFloat.

Lemma shr_1_nonneg mrs : 0 <= shr_m mrs -> 0 <= shr_m (shr_1 mrs).
Proof.
  destruct mrs as [m r s]; simpl.
  destruct m as [|p|p]; [| destruct p | intros H; exfalso; lia]; simpl; lia.
Qed.

Lemma iter_shr_1_nonneg p : forall mrs,
  0 <= shr_m mrs -> 0 <= shr_m (iter_pos shr_1 p mrs).
Proof.
  induction p as [p IH|p IH|]; intros mrs H; simpl.
  - apply IH, IH, shr_1_nonneg, H.
  - apply IH, IH, H.
  - apply shr_1_nonneg, H.
Qed.

Lemma shr_nonneg mrs e n : 0 <= shr_m mrs -> 0 <= shr_m (fst (shr mrs e n)).
Proof.
  intros H. destruct n; simpl; auto using iter_shr_1_nonneg.
Qed.

Lemma shr_fexp_nonneg m e l :
  0 <= m -> 0 <= shr_m (fst (shr_fexp prec emax m e l)).
Proof.
  intros H. unfold shr_fexp. apply shr_nonneg.
  destruct l as [|[]]; exact H.
Qed.

Lemma round_nearest_even_nonneg m l : 0 <= m -> 0 <= round_nearest_even m l.
Proof.
  intros H. destruct l as [|[]]; simpl; try lia.
  destruct (Z.even m); lia.
Qed.

Lemma binary_round_aux_signed s m e l :
  0 <= m -> signed s (binary_round_aux prec emax s m e l).
Proof.
  intros H. unfold binary_round_aux.
  pose proof (shr_fexp_nonneg m e l H) as H1.
  destruct (shr_fexp prec emax m e l) as [mrs' e'] eqn:E1. simpl in H1.
  pose proof (shr_fexp_nonneg _ e' loc_Exact
                (round_nearest_even_nonneg _ (loc_of_shr_record mrs') H1)) as H2.
  destruct (shr_fexp prec emax _ e' loc_Exact) as [mrs'' e''] eqn:E2. simpl in H2.
  destruct (shr_m mrs'') as [|p|p].
  - reflexivity.
  - destruct (e'' <=? emax - prec); reflexivity.
  - lia.
Qed.

Lemma div_core_nonneg m1 e1 m2 e2 :
  0 <= m1 -> 0 < m2 ->
  0 <= fst (fst (SFdiv_core_binary prec emax m1 e1 m2 e2)).
Proof.
  intros H1 H2. unfold SFdiv_core_binary.
  set (s := _ - _ - _).
  set (m' := match s with Z0 => m1 | Zpos _ => Z.shiftl m1 s | Zneg _ => 0 end).
  assert (Hm' : 0 <= m').
  { subst m'. destruct s; try lia. apply Z.shiftl_nonneg, H1. }
  pose proof (Z_div_mod m' m2 ltac:(lia)) as Hd.
  destruct (Z.div_eucl m' m2) as [q r]. simpl.
  destruct Hd as [Hq Hr]. nia.
Qed.

Lemma int_truediv_signed a b :
  a <> 0 -> 0 < b -> signed (a <? 0) (int_truediv a b).
Proof.
  intros Ha Hb. unfold int_truediv.
  pose proof (div_core_nonneg (Z.abs a) 0 b 0 ltac:(lia) Hb) as H.
  destruct (SFdiv_core_binary prec emax (Z.abs a) 0 b 0) as [[q e] l].
  simpl in H. destruct a; [congruence| |]; apply binary_round_aux_signed, H.
Qed.

Lemma int_truediv_not_nan a b : 0 < b -> int_truediv a b <> S754_nan.
Proof.
  intros Hb. destruct (Z.eq_dec a 0) as [->|Ha]; [discriminate|].
  pose proof (int_truediv_signed a b Ha Hb) as H.
  intros E. rewrite E in H. exact H.
Qed.

Lemma div_finite_pos_signed s x m e :
  signed s x -> signed s (div x (S754_finite false m e)).
Proof.
  intros H. destruct x as [s'|s'| |s' mx ex]; simpl in *; subst;
    try (destruct s; reflexivity); try contradiction.
  unfold div, SFdiv.
  pose proof (div_core_nonneg (Zpos mx) ex (Zpos m) e ltac:(lia) ltac:(lia)) as Hq.
  destruct (SFdiv_core_binary _ _ (Zpos mx) ex (Zpos m) e) as [[q e'] l].
  simpl in Hq. rewrite xorb_false_r. apply binary_round_aux_signed, Hq.
Qed.

Lemma div_half_even_nonneg n d : 0 <= n -> 0 < d -> 0 <= div_half_even n d.
Proof.
  intros Hn Hd. unfold div_half_even.
  pose proof (Z.div_pos n d Hn Hd).
  destruct (2 * (n mod d) ?= d); [destruct (Z.even _)| |]; lia.
Qed.

Lemma hundredths_nonneg m e : 0 <= hundredths m e.
Proof.
  unfold hundredths. destruct e as [|k|k].
  - lia.
  - pose proof (Z.pow_nonneg 2 (Zpos k)). nia.
  - apply div_half_even_nonneg; [lia|].
    rewrite Z.pow_pos_fold. apply Z.pow_pos_nonneg; lia.
Qed.

Lemma round2_signed s x : signed s x -> signed s (round2 x).
Proof.
  intros H. destruct x as [s'|s'| |s' m e]; simpl in *; auto.
  pose proof (hundredths_nonneg m e) as Hk.
  destruct (hundredths m e) as [|k|k] eqn:Ek; simpl; auto; [|lia].
  pose proof (div_core_nonneg (Zpos k) 0 100 0 ltac:(lia) ltac:(lia)) as Hq.
  destruct (SFdiv_core_binary prec emax (Zpos k) 0 100 0) as [[q e'] l].
  simpl in Hq. subst s'. apply binary_round_aux_signed, Hq.
Qed.

Lemma negative_leb_finite_pos x m e :
  signed true x -> leb x (S754_finite false m e) = true.
Proof.
  destruct x as [s|s| |s mx ex]; simpl; intros H; subst; try contradiction;
    reflexivity.
Qed.

Lemma mul_finite_not_nan x s m e :
  x <> S754_nan -> mul x (S754_finite s m e) <> S754_nan.
Proof.
  intros Hn. destruct x as [sx|sx| |sx mx ex]; simpl;
    try discriminate; try congruence.
  pose proof (binary_round_aux_signed (xorb sx s) (Zpos (mx * m)) (ex + e)
                loc_Exact ltac:(lia)) as H.
  intros E. unfold mul, SFmul in E. rewrite E in H. exact H.
Qed.

End FloatSign.

(** ** Precedence chains *)

Section FirstMatch.

Variable self : StrokeAssessment.

(** The rule at position [i] gives the result as soon as it applies and no
    rule before it does. *)
Lemma first_match_at rules otherwise : forall i applies result,
  nth_error rules i = Some (applies, result) ->
  applies self = true ->
  (forall j c r, (j < i)%nat -> nth_error rules j = Some (c, r) -> c self = false) ->
  first_match rules otherwise self = result.
Proof.
  induction rules as [|[c0 r0] rest IH]; intros i applies result Hi Ha Hb.
  - destruct i; discriminate.
  - destruct i as [|i]; simpl in *.
    + injection Hi as -> ->. now rewrite Ha.
    + rewrite (Hb 0%nat c0 r0 ltac:(lia) eq_refl).
      apply (IH i applies result Hi Ha).
      intros j c r Hj Hn. apply (Hb (S j) c r); [lia | exact Hn].
Qed.

(** When no rule applies the result is the fallback. *)
Lemma first_match_otherwise rules otherwise :
  (forall c r, In (c, r) rules -> c self = false) ->
  first_match rules otherwise self = otherwise.
Proof.
  induction rules as [|[c0 r0] rest IH]; intros H; simpl.
  - reflexivity.
  - rewrite (H c0 r0 (or_introl eq_refl)).
    apply IH. intros c r Hin. apply (H c r). now right.
Qed.

End FirstMatch.

Lemma tpa_chain (self : StrokeAssessment) :
  get_tpa_eligibility_status self
    = first_match tpa_rules "Potentially Eligible" self.
Proof.
  unfold get_tpa_eligibility_status, tpa_rules, first_match, known_above.
  simpl existsb.
  destruct (is_within_tpa_window self); simpl; [|reflexivity].
  destruct (hemorrhage_present self); simpl; [reflexivity|].
  destruct (systolic_bp (patient self)) as [sbp|]; rewrite ?Z.gtb_ltb;
    [destruct (185 <? sbp); [reflexivity|] |];
    (destruct (diastolic_bp (patient self)) as [dbp|]; rewrite ?Z.gtb_ltb;
     [destruct (110 <? dbp); [reflexivity|] |]);
    destruct (recent_surgery self), (prior_stroke_head_trauma self),
      (gi_urinary_hemorrhage self); simpl; try reflexivity;
    destruct (low_platelets self), (elevated_inr self),
      (current_anticoagulant_use self); reflexivity.
Qed.

Lemma thrombectomy_chain (self : StrokeAssessment) :
  get_thrombectomy_candidacy self
    = first_match thrombectomy_rules "Potentially Candidate" self.
Proof.
  unfold get_thrombectomy_candidacy, thrombectomy_rules, first_match.
  destruct (is_within_thrombectomy_window self), (hemorrhage_present self);
    simpl; try reflexivity.
  destruct (string_dec (lvo_status self) "PRESENT") as [E|E].
  - rewrite E. simpl. destruct (aspects_score self); reflexivity.
  - apply String.eqb_neq in E. now rewrite E.
Qed.

(** The LVO rule sits before both ASPECTS rules: once the window and the
    hemorrhage rules are passed, any LVO status other than PRESENT decides,
    whatever the ASPECTS score. *)
Lemma lvo_rule_precedes_aspects (self : StrokeAssessment) :
  is_within_thrombectomy_window self = true ->
  hemorrhage_present self = false ->
  lvo_status self <> "PRESENT" ->
  get_thrombectomy_candidacy self = "Not Candidate (No LVO Detected)".
Proof.
  intros Hw Hh Hl. rewrite thrombectomy_chain.
  apply (first_match_at self thrombectomy_rules _ 2
           (fun a => if string_dec (lvo_status a) "PRESENT" then false else true)).
  - reflexivity.
  - now destruct (string_dec (lvo_status self) "PRESENT").
  - intros [|[|j]] c r Hj Hn; simpl in Hn; try lia;
      injection Hn as <- <-; [now rewrite Hw | exact Hh].
Qed.

(** With every contraindication absent the tPA chain falls through to its
    last line. *)
Lemma tpa_fallback (self : StrokeAssessment) :
  (forall c r, In (c, r) tpa_rules -> c self = false) ->
  get_tpa_eligibility_status self = "Potentially Eligible".
Proof.
  intros H. rewrite tpa_chain. now apply first_match_otherwise.
Qed.

(** C1. [get_tpa_eligibility_status] is the first-match evaluation of the
    ordered rules (outside window, hemorrhage, systolic BP above 185,
    diastolic BP above 110, any bleeding risk factor, low platelets, elevated
    INR, current anticoagulant) with "Potentially Eligible" as fallback; in
    particular hemorrhage outside the window reports the window. *)
Theorem tpa_eligibility_precedence (self : StrokeAssessment) :
  get_tpa_eligibility_status self
    = first_match tpa_rules "Potentially Eligible" self
  /\ (hemorrhage_present self = true ->
      is_within_tpa_window self = false ->
      get_tpa_eligibility_status self = "Not Eligible (Outside Time Window)").
Proof.
  split.
  - apply tpa_chain.
  - intros _ Hw. unfold get_tpa_eligibility_status. now rewrite Hw.
Qed.

Lemma tpa_eligibility_precedence_witness :
  get_tpa_eligibility_status bleed_no_lkw = "Not Eligible (Outside Time Window)".
Proof.
  apply (proj2 (tpa_eligibility_precedence bleed_no_lkw)); reflexivity.
Defined.

(** C7, as amended. [get_thrombectomy_candidacy] is the first-match
    evaluation of the ordered rules (outside the 6-hour window, hemorrhage,
    LVO status other than PRESENT, ASPECTS missing, ASPECTS below 6) with
    "Potentially Candidate" as fallback; in particular, within the window and
    without hemorrhage, LVO absent with ASPECTS 3 reports the missing LVO. *)
Theorem thrombectomy_candidacy_precedence (self : StrokeAssessment) :
  get_thrombectomy_candidacy self
    = first_match thrombectomy_rules "Potentially Candidate" self
  /\ (is_within_thrombectomy_window self = true ->
      hemorrhage_present self = false ->
      lvo_status self = "ABSENT" ->
      aspects_score self = Some 3 ->
      get_thrombectomy_candidacy self = "Not Candidate (No LVO Detected)").
Proof.
  split.
  - apply thrombectomy_chain.
  - intros Hw Hh Hl _. apply lvo_rule_precedes_aspects; auto.
    rewrite Hl. discriminate.
Qed.

Lemma thrombectomy_candidacy_precedence_witness :
  get_thrombectomy_candidacy no_bleed_no_lvo = "Not Candidate (No LVO Detected)".
Proof.
  apply (proj2 (thrombectomy_candidacy_precedence no_bleed_no_lvo));
    reflexivity.
Defined.

(** C7, as stated, fails: within the window, LVO absent and ASPECTS 3, an
    assessment with hemorrhage reports the hemorrhage, not the missing LVO. *)
Lemma thrombectomy_lvo_example_fails_with_hemorrhage :
  is_within_thrombectomy_window bleed_no_lvo = true
  /\ lvo_status bleed_no_lvo = "ABSENT"
  /\ aspects_score bleed_no_lvo = Some 3
  /\ get_thrombectomy_candidacy bleed_no_lvo
       = "Not Candidate (Intracranial Hemorrhage)"
  /\ get_thrombectomy_candidacy bleed_no_lvo
       <> "Not Candidate (No LVO Detected)".
Proof.
  repeat split; try reflexivity. vm_compute. discriminate.
Qed.

(** ** ASPECTS interpretation *)

(** What the code returns on each range of scores. *)
Lemma aspects_interpretation_cases (self : StrokeAssessment) :
  match aspects_score self with
  | None => get_aspects_interpretation self = "ASPECTS score not available."
  | Some s =>
      (s = 10 -> get_aspects_interpretation self
                 = "Normal CT scan (no early ischemic changes).")
      /\ (8 <= s -> s <> 10 -> get_aspects_interpretation self
                               = "Mild early ischemic changes.")
      /\ (5 <= s <= 7 -> get_aspects_interpretation self
                         = "Moderate early ischemic changes.")
      /\ (0 <= s <= 4 -> get_aspects_interpretation self
            = "Severe early ischemic changes (significant infarction).")
      /\ (s < 0 -> get_aspects_interpretation self = "Invalid ASPECTS score.")
  end.
Proof.
  unfold get_aspects_interpretation.
  destruct (aspects_score self) as [s|]; [|reflexivity].
  unfold Z.geb.
  repeat split; intros;
    destruct (Z.eqb_spec s 10); try lia;
    destruct (Z.compare_spec s 8); try lia; try reflexivity;
    destruct (Z.compare_spec s 5); try lia; try reflexivity;
    destruct (Z.compare_spec s 0); try lia; reflexivity.
Qed.

(** C3 fails above the scale: every score greater than 10 is reported as
    mild ischemia, where the claim expects the invalid-score text. *)
Theorem aspects_above_scale_is_mild (self : StrokeAssessment) (s : Z) :
  aspects_score self = Some s ->
  10 < s ->
  get_aspects_interpretation self = "Mild early ischemic changes.".
Proof.
  intros Hs Hgt. pose proof (aspects_interpretation_cases self) as H.
  rewrite Hs in H. apply H; lia.
Qed.

Lemma aspects_above_scale_is_mild_witness :
  get_aspects_interpretation aspects_eleven = "Mild early ischemic changes.".
Proof.
  apply (aspects_above_scale_is_mild aspects_eleven 11); [reflexivity | lia].
Defined.

(** ** NIHSS total *)

Lemma nihss_loop_unknown components : forall total,
  nihss_loop components total = None <-> In None components.
Proof.
  induction components as [|[v|] rest IH]; intros total; simpl.
  - split; [discriminate | tauto].
  - rewrite IH. split; [auto | intros [H|H]; [discriminate | exact H]].
  - split; auto.
Qed.

Lemma nihss_loop_sum values : forall total,
  nihss_loop (map Some values) total = Some (total + fold_right Z.add 0 values).
Proof.
  induction values as [|v rest IH]; intros total; simpl.
  - f_equal. lia.
  - rewrite IH. f_equal. lia.
Qed.

(** C5. The NIHSS total is unknown exactly when one of the fifteen
    sub-scores is unset; with all fifteen set it is their plain sum, each
    counted once, without clamping. *)
Theorem nihss_total_all_or_nothing (self : StrokeAssessment) :
  (calculate_nihss_total_score self = None
   <-> nihss_1a_loc_alert self = None
       \/ nihss_1b_loc_questions self = None
       \/ nihss_1c_loc_commands self = None
       \/ nihss_2_best_gaze self = None
       \/ nihss_3_visual_field self = None
       \/ nihss_4_facial_palsy self = None
       \/ nihss_5a_motor_left_arm self = None
       \/ nihss_5b_motor_right_arm self = None
       \/ nihss_6a_motor_left_leg self = None
       \/ nihss_6b_motor_right_leg self = None
       \/ nihss_7_limb_ataxia self = None
       \/ nihss_8_sensory self = None
       \/ nihss_9_best_language self = None
       \/ nihss_10_dysarthria self = None
       \/ nihss_11_extinction_inattention self = None)
  /\ (forall v1a v1b v1c v2 v3 v4 v5a v5b v6a v6b v7 v8 v9 v10 v11,
        nihss_1a_loc_alert self = Some v1a ->
        nihss_1b_loc_questions self = Some v1b ->
        nihss_1c_loc_commands self = Some v1c ->
        nihss_2_best_gaze self = Some v2 ->
        nihss_3_visual_field self = Some v3 ->
        nihss_4_facial_palsy self = Some v4 ->
        nihss_5a_motor_left_arm self = Some v5a ->
        nihss_5b_motor_right_arm self = Some v5b ->
        nihss_6a_motor_left_leg self = Some v6a ->
        nihss_6b_motor_right_leg self = Some v6b ->
        nihss_7_limb_ataxia self = Some v7 ->
        nihss_8_sensory self = Some v8 ->
        nihss_9_best_language self = Some v9 ->
        nihss_10_dysarthria self = Some v10 ->
        nihss_11_extinction_inattention self = Some v11 ->
        calculate_nihss_total_score self
        = Some (v1a + v1b + v1c + v2 + v3 + v4 + v5a + v5b + v6a + v6b
                + v7 + v8 + v9 + v10 + v11)).
Proof.
  unfold calculate_nihss_total_score. split.
  - rewrite nihss_loop_unknown. unfold nihss_components. simpl. tauto.
  - intros v1a v1b v1c v2 v3 v4 v5a v5b v6a v6b v7 v8 v9 v10 v11
      H1 H2 H3 H4 H5 H6 H7 H8 H9 H10 H11 H12 H13 H14 H15.
    unfold nihss_components.
    rewrite H1, H2, H3, H4, H5, H6, H7, H8, H9, H10, H11, H12, H13, H14, H15.
    simpl. f_equal; lia.
Qed.

Lemma nihss_total_all_or_nothing_witness :
  calculate_nihss_total_score distinct_scores = Some 32767.
Proof.
  apply (proj2 (nihss_total_all_or_nothing distinct_scores)
           1 2 4 8 16 32 64 128 256 512 1024 2048 4096 8192 16384);
    reflexivity.
Defined.

(** ** RACE score *)

Lemma existsb_is_None {A : Type} (l : list (option A)) :
  existsb is_None l = true <-> In None l.
Proof.
  rewrite existsb_exists. split.
  - intros [[v|] [Hin Hn]]; [discriminate | exact Hin].
  - intros Hin. exists None. now split.
Qed.

Lemma race_unknown (self : StrokeAssessment) :
  calculate_race_score self = None <-> In None (required_race_components self).
Proof.
  rewrite <- existsb_is_None. unfold calculate_race_score. cbv zeta.
  destruct (existsb is_None (required_race_components self)).
  - tauto.
  - split; discriminate.
Qed.

Lemma motor_steps_range v : 0 <= motor_steps v 0 <= 2.
Proof.
  unfold motor_steps. destruct (v >=? 4), (v >=? 2); lia.
Qed.

(** The code's own bound: five items worth up to 2 points and one worth
    up to 1. *)
Lemma race_range (self : StrokeAssessment) (s : Z) :
  calculate_race_score self = Some s -> 0 <= s <= 11.
Proof.
  unfold calculate_race_score. cbv zeta.
  destruct (existsb is_None (required_race_components self)); [discriminate|].
  intros H. injection H as <-.
  assert (Harm : forall l r : option Z,
             0 <= match l, r with
                  | Some l, Some r => motor_steps (Z.max l r) 0
                  | Some l, None => motor_steps l 0
                  | None, Some r => motor_steps r 0
                  | None, None => 0
                  end <= 2).
  { intros [l|] [r|]; try apply motor_steps_range; lia. }
  pose proof (Harm (nihss_5a_motor_left_arm self) (nihss_5b_motor_right_arm self)) as Ha.
  pose proof (Harm (nihss_6a_motor_left_leg self) (nihss_6b_motor_right_leg self)) as Hl.
  revert Ha Hl.
  generalize (match nihss_5a_motor_left_arm self, nihss_5b_motor_right_arm self with
              | Some l, Some r => motor_steps (Z.max l r) 0
              | Some l, None => motor_steps l 0
              | None, Some r => motor_steps r 0
              | None, None => 0
              end) as arm.
  generalize (match nihss_6a_motor_left_leg self, nihss_6b_motor_right_leg self with
              | Some l, Some r => motor_steps (Z.max l r) 0
              | Some l, None => motor_steps l 0
              | None, Some r => motor_steps r 0
              | None, None => 0
              end) as leg.
  intros leg arm Ha Hl.
  destruct (nihss_4_facial_palsy self) as [f|],
    (nihss_2_best_gaze self) as [g|],
    (nihss_9_best_language self) as [b|],
    (nihss_11_extinction_inattention self) as [x|];
    repeat match goal with
           | |- context [if ?c then _ else _] => destruct c
           end; lia.
Qed.

(** C2 fails on the range: with every required item at its worst value
    (facial palsy 3, all four limbs 4, gaze 2, language 3, extinction 2) the
    score returned is 11, above the documented maximum of 9. *)
Theorem race_score_worst_deficits :
  ~ In None (required_race_components worst_deficits)
  /\ calculate_race_score worst_deficits = Some 11.
Proof.
  split; [|reflexivity].
  simpl. intros H.
  repeat (destruct H as [H|H]; [discriminate|]). exact H.
Qed.

(** ** Time since last known well *)

Lemma time_since_lkw_value (self : StrokeAssessment) (lkw : datetime) :
  last_known_well_time (patient self) = Some lkw ->
  calculate_time_since_lkw self = Some (assessment_time self - lkw).
Proof.
  intros H. unfold calculate_time_since_lkw. now rewrite H.
Qed.

(** With a last-known-well time that differs from the assessment time the
    hours are defined: the seconds divided by 3600, rounded to two places. *)
Lemma hours_value (self : StrokeAssessment) (lkw : datetime) :
  last_known_well_time (patient self) = Some lkw ->
  lkw <> assessment_time self ->
  get_time_since_lkw_hours self
    = Some (PyFloat.round2
              (PyFloat.div (total_seconds (assessment_time self - lkw)) f3600)).
Proof.
  intros H Hne. unfold get_time_since_lkw_hours.
  rewrite (time_since_lkw_value self lkw H). unfold timedelta_bool.
  destruct (Z.eqb_spec (assessment_time self - lkw) 0) as [E|E]; [lia|].
  reflexivity.
Qed.

(** C4 fails at a zero time difference.  [calculate_time_since_lkw] is
    unknown exactly when the last-known-well time is unset, but
    [get_time_since_lkw_hours] is unknown in one more case: when the
    last-known-well time is set and equals the assessment time. *)
Theorem hours_unknown_iff (self : StrokeAssessment) :
  (calculate_time_since_lkw self = None
   <-> last_known_well_time (patient self) = None)
  /\ (get_time_since_lkw_hours self = None
      <-> last_known_well_time (patient self) = None
          \/ last_known_well_time (patient self) = Some (assessment_time self)).
Proof.
  destruct (last_known_well_time (patient self)) as [lkw|] eqn:E.
  - rewrite (time_since_lkw_value self lkw E). split.
    + split; discriminate.
    + destruct (Z.eq_dec lkw (assessment_time self)) as [->|Hne].
      * unfold get_time_since_lkw_hours.
        rewrite (time_since_lkw_value self _ E), Z.sub_diag. simpl.
        split; auto.
      * rewrite (hours_value self lkw E Hne).
        split; [discriminate | intros [H|H]; congruence].
  - unfold get_time_since_lkw_hours, calculate_time_since_lkw. rewrite E.
    split; split; auto.
Qed.

(** The failing input: last known well at the instant of the assessment. *)
Example hours_at_onset :
  last_known_well_time (patient seen_at_onset)
    = Some (assessment_time seen_at_onset)
  /\ calculate_time_since_lkw seen_at_onset = Some 0
  /\ get_time_since_lkw_hours seen_at_onset = None
  /\ get_tpa_eligibility_status seen_at_onset
       = "Not Eligible (Outside Time Window)".
Proof. repeat split. Qed.

(** ** Window classifiers *)

(** C6. The tPA window holds exactly when the hours since last known well
    are known and at most 4.5: 4.50 is inside, 4.51 outside, and a missing
    last-known-well time gives [false]. *)
Theorem tpa_window_iff (self : StrokeAssessment) :
  (is_within_tpa_window self = true
   <-> exists h, get_time_since_lkw_hours self = Some h
                 /\ PyFloat.leb h f4_5 = true)
  /\ (last_known_well_time (patient self) = None ->
      is_within_tpa_window self = false)
  /\ (get_time_since_lkw_hours self = Some f4_5 ->
      is_within_tpa_window self = true)
  /\ (get_time_since_lkw_hours self = Some f4_51 ->
      is_within_tpa_window self = false).
Proof.
  unfold is_within_tpa_window. repeat split.
  - destruct (get_time_since_lkw_hours self) as [h|]; [|discriminate].
    intros H. exists h. split; [reflexivity|].
    now destruct (PyFloat.leb h f4_5).
  - intros [h [-> ->]]. reflexivity.
  - intros H. unfold get_time_since_lkw_hours, calculate_time_since_lkw.
    now rewrite H.
  - now intros ->.
  - now intros ->.
Qed.

Lemma tpa_window_iff_witness :
  is_within_tpa_window bleed_no_lkw = false
  /\ is_within_tpa_window seen_at_4_50h = true
  /\ is_within_tpa_window seen_at_4_51h = false.
Proof.
  split; [|split].
  - apply (proj1 (proj2 (tpa_window_iff bleed_no_lkw))). reflexivity.
  - apply (proj1 (proj2 (proj2 (tpa_window_iff seen_at_4_50h)))).
    vm_compute. reflexivity.
  - apply (proj2 (proj2 (proj2 (tpa_window_iff seen_at_4_51h)))).
    vm_compute. reflexivity.
Defined.

(** Against two positive bounds of one exponent, the comparison with the
    smaller mantissa implies the comparison with the larger. *)
Lemma leb_finite_widen (h : PyFloat.float) (p q : positive) (e : Z) :
  (p <= q)%positive ->
  PyFloat.leb h (S754_finite false p e) = true ->
  PyFloat.leb h (S754_finite false q e) = true.
Proof.
  intros Hpq. unfold PyFloat.leb, SFleb.
  destruct h as [s|s| |[|] m e']; simpl; auto.
  destruct (e' ?= e); auto.
  change (PosDef.Pos.compare_cont Eq m) with (Pos.compare m).
  destruct (Pos.compare_spec m p) as [E|E|E]; try discriminate; intros _;
    destruct (Pos.compare_spec m q) as [F|F|F]; try reflexivity; lia.
Qed.

(** Whatever is at most 4.5 is at most 6. *)
Lemma leb_4_5_leb_6 (h : PyFloat.float) :
  PyFloat.leb h f4_5 = true -> PyFloat.leb h f6 = true.
Proof.
  apply leb_finite_widen. vm_compute. discriminate.
Qed.

(** C9. Within the tPA window implies within the thrombectomy window. *)
Theorem tpa_window_inside_thrombectomy_window (self : StrokeAssessment) :
  is_within_tpa_window self = true ->
  is_within_thrombectomy_window self = true.
Proof.
  unfold is_within_tpa_window, is_within_thrombectomy_window.
  destruct (get_time_since_lkw_hours self) as [h|]; [|discriminate].
  destruct (PyFloat.leb h f4_5) eqn:E; [|discriminate].
  intros _. now rewrite (leb_4_5_leb_6 h E).
Qed.

Lemma tpa_window_inside_thrombectomy_window_witness :
  is_within_thrombectomy_window seen_at_3h = true.
Proof.
  apply (tpa_window_inside_thrombectomy_window seen_at_3h).
  vm_compute. reflexivity.
Defined.

(** The containment is strict: five hours is inside the second window only. *)
Example five_hours_between_windows :
  let a := an_assessment (a_patient (Some 0)) (5 * one_hour) false None "UNKNOWN" in
  is_within_tpa_window a = false /\ is_within_thrombectomy_window a = true.
Proof. vm_compute. split; reflexivity. Qed.

(** A last-known-well time after the assessment gives negative hours. *)
Lemma negative_hours (self : StrokeAssessment) (lkw : datetime) :
  last_known_well_time (patient self) = Some lkw ->
  assessment_time self < lkw ->
  exists h, get_time_since_lkw_hours self = Some h /\ PyFloat.signed true h.
Proof.
  intros H Hlt. rewrite (hours_value self lkw H ltac:(lia)).
  eexists. split; [reflexivity|].
  apply round2_signed, div_finite_pos_signed.
  replace true with (assessment_time self - lkw <? 0)
    by (apply Z.ltb_lt; lia).
  apply int_truediv_signed; lia.
Qed.

(** C10. With the last-known-well time strictly after the assessment time
    the hours are known and negative, and both windows hold. *)
Theorem negative_elapsed_time_is_within_windows
    (self : StrokeAssessment) (lkw : datetime) :
  last_known_well_time (patient self) = Some lkw ->
  assessment_time self < lkw ->
  (exists h, get_time_since_lkw_hours self = Some h /\ PyFloat.signed true h)
  /\ is_within_tpa_window self = true
  /\ is_within_thrombectomy_window self = true.
Proof.
  intros H Hlt. destruct (negative_hours self lkw H Hlt) as [h [Hh Hs]].
  split; [now exists h|].
  unfold is_within_tpa_window, is_within_thrombectomy_window. rewrite Hh.
  unfold f4_5, f6. now rewrite !negative_leb_finite_pos.
Qed.

Lemma negative_elapsed_time_is_within_windows_witness :
  is_within_tpa_window seen_before_lkw = true
  /\ is_within_thrombectomy_window seen_before_lkw = true.
Proof.
  apply (negative_elapsed_time_is_within_windows seen_before_lkw one_hour);
    [reflexivity | unfold one_hour; simpl; lia].
Defined.

(** ** tPA dose *)

Section FloatOrder.

Import PyFloat.

Lemma compare_antisym (x y : float) :
  SFcompare y x = option_map CompOpp (SFcompare x y).
Proof.
  destruct x as [sx|sx| |sx mx ex], y as [sy|sy| |sy my ey]; simpl;
    try reflexivity;
    try (destruct sx; reflexivity); try (destruct sy; reflexivity);
    try (destruct sx, sy; reflexivity).
  change (PosDef.Pos.compare_cont Eq my mx) with (Pos.compare my mx).
  change (PosDef.Pos.compare_cont Eq mx my) with (Pos.compare mx my).
  rewrite (Z.compare_antisym ex ey), (Pos.compare_antisym mx my).
  destruct sx, sy; simpl; try reflexivity;
    destruct (ex ?= ey); simpl; try reflexivity.
Qed.

Lemma not_ltb_leb (x y : float) :
  x <> S754_nan -> y <> S754_nan -> ltb y x = false -> leb x y = true.
Proof.
  intros Hx Hy. unfold ltb, leb, SFltb, SFleb.
  rewrite (compare_antisym x y).
  destruct (SFcompare x y) as [[| |]|] eqn:E; simpl; try reflexivity;
    try discriminate.
  destruct x, y; simpl in E; congruence.
Qed.

Lemma ltb_leb (x y : float) : ltb x y = true -> leb x y = true.
Proof.
  unfold ltb, leb, SFltb, SFleb.
  destruct (SFcompare x y) as [[| |]|]; auto.
Qed.

Lemma leb_refl (x : float) : x <> S754_nan -> leb x x = true.
Proof.
  intros Hx. unfold leb, SFleb.
  destruct x as [s|s| |s m e]; simpl; try reflexivity; try congruence.
  - destruct s; reflexivity.
  - destruct s; rewrite Z.compare_refl, Pos.compare_cont_refl; reflexivity.
Qed.

(** [min(x, bound)] is one of its arguments and is below both. *)
Lemma min_spec (x bound : float) :
  x <> S754_nan -> bound <> S754_nan ->
  leb (min x bound) bound = true
  /\ leb (min x bound) x = true
  /\ (min x bound = x \/ min x bound = bound).
Proof.
  intros Hx Hb. unfold min. destruct (ltb bound x) eqn:E.
  - split; [now apply leb_refl|]. split; [now apply ltb_leb | now right].
  - split; [now apply not_ltb_leb|]. split; [now apply leb_refl | now left].
Qed.

End FloatOrder.

Lemma float_of_Decimal_not_nan (w : Decimal) : float_of_Decimal w <> S754_nan.
Proof.
  apply int_truediv_not_nan, Z.pow_pos_nonneg; lia.
Qed.

(** C8. The dose is unknown exactly when the weight is unset; otherwise it
    is the smaller of weight times 0.9 and 90.0, hence never above 90:
    120 kg gives 90.0 and 50 kg gives 45.0. *)
Theorem tpa_dose_clamped (self : StrokeAssessment) :
  (calculate_tpa_dose self = None <-> weight_kg (patient self) = None)
  /\ (forall w, weight_kg (patient self) = Some w ->
        exists d,
          calculate_tpa_dose self = Some d
          /\ d = PyFloat.min (PyFloat.mul (float_of_Decimal w) f0_9) f90
          /\ PyFloat.leb d f90 = true
          /\ PyFloat.leb d (PyFloat.mul (float_of_Decimal w) f0_9) = true
          /\ (d = PyFloat.mul (float_of_Decimal w) f0_9 \/ d = f90))
  /\ (weight_kg (patient self) = Some (mkDecimal 12000 2) ->
      calculate_tpa_dose self = Some f90)
  /\ (weight_kg (patient self) = Some (mkDecimal 5000 2) ->
      calculate_tpa_dose self = Some f45).
Proof.
  unfold calculate_tpa_dose. repeat split.
  - destruct (weight_kg (patient self)); [discriminate | reflexivity].
  - now intros ->.
  - intros w ->. eexists. split; [reflexivity|]. split; [reflexivity|].
    apply min_spec; [|discriminate].
    apply mul_finite_not_nan, float_of_Decimal_not_nan.
  - intros ->. vm_compute. reflexivity.
  - intros ->. vm_compute. reflexivity.
Qed.

Lemma tpa_dose_clamped_witness :
  calculate_tpa_dose (weighing None) = None
  /\ calculate_tpa_dose (weighing (Some (mkDecimal 12000 2))) = Some f90
  /\ calculate_tpa_dose (weighing (Some (mkDecimal 5000 2))) = Some f45.
Proof.
  split; [|split].
  - apply (proj2 (proj1 (tpa_dose_clamped (weighing None)))). reflexivity.
  - apply (proj1 (proj2 (proj2
             (tpa_dose_clamped (weighing (Some (mkDecimal 12000 2))))))).
    reflexivity.
  - apply (proj2 (proj2 (proj2
             (tpa_dose_clamped (weighing (Some (mkDecimal 5000 2))))))).
    reflexivity.
Defined.

(** The clamp starts right above 100 kg. *)
Example dose_around_100kg :
  calculate_tpa_dose (weighing (Some (mkDecimal 10000 2))) = Some f90
  /\ calculate_tpa_dose (weighing (Some (mkDecimal 9999 2)))
       = Some (PyFloat.mul (float_of_Decimal (mkDecimal 9999 2)) f0_9).
Proof. vm_compute. split; reflexivity. Qed.

(** * Further properties of the rules engine *)

(** ** When each classifier accepts *)

Lemma outside_thrombectomy_outside_tpa (self : StrokeAssessment) :
  is_within_thrombectomy_window self = false ->
  is_within_tpa_window self = false.
Proof.
  unfold is_within_tpa_window, is_within_thrombectomy_window.
  destruct (get_time_since_lkw_hours self) as [h|]; [|reflexivity].
  destruct (PyFloat.leb h f4_5) eqn:E; [|reflexivity].
  now rewrite (leb_4_5_leb_6 h E).
Qed.

Lemma known_above_false (x : option Z) (bound : Z) :
  known_above x bound = false <-> (forall v, x = Some v -> v <= bound).
Proof.
  unfold known_above. destruct x as [v|].
  - rewrite Z.gtb_ltb, Z.ltb_ge. split.
    + intros H v' E. injection E as <-. exact H.
    + intros H. now apply H.
  - split; [discriminate | reflexivity].
Qed.

Ltac chain_case c :=
  destruct c; simpl;
  try (split; [discriminate | intuition discriminate]).

Lemma tpa_eligible_iff (self : StrokeAssessment) :
  get_tpa_eligibility_status self = "Potentially Eligible"
  <-> is_within_tpa_window self = true
      /\ hemorrhage_present self = false
      /\ known_above (systolic_bp (patient self)) 185 = false
      /\ known_above (diastolic_bp (patient self)) 110 = false
      /\ recent_surgery self = false
      /\ prior_stroke_head_trauma self = false
      /\ gi_urinary_hemorrhage self = false
      /\ low_platelets self = false
      /\ elevated_inr self = false
      /\ current_anticoagulant_use self = false.
Proof.
  unfold get_tpa_eligibility_status.
  chain_case (is_within_tpa_window self).
  chain_case (hemorrhage_present self).
  chain_case (known_above (systolic_bp (patient self)) 185).
  chain_case (known_above (diastolic_bp (patient self)) 110).
  chain_case (recent_surgery self).
  chain_case (prior_stroke_head_trauma self).
  chain_case (gi_urinary_hemorrhage self).
  chain_case (low_platelets self).
  chain_case (elevated_inr self).
  chain_case (current_anticoagulant_use self).
  intuition reflexivity.
Qed.

Lemma candidate_iff (self : StrokeAssessment) :
  get_thrombectomy_candidacy self = "Potentially Candidate"
  <-> is_within_thrombectomy_window self = true
      /\ hemorrhage_present self = false
      /\ lvo_status self = "PRESENT"
      /\ exists score, aspects_score self = Some score /\ 6 <= score.
Proof.
  unfold get_thrombectomy_candidacy.
  chain_case (is_within_thrombectomy_window self).
  chain_case (hemorrhage_present self).
  destruct (String.eqb_spec (lvo_status self) "PRESENT") as [E|E]; simpl.
  - destruct (aspects_score self) as [score|].
    + destruct (Z.ltb_spec score 6).
      * split; [discriminate|]. intros (_ & _ & _ & s & Hs & Hle).
        injection Hs as <-. lia.
      * split; [|reflexivity]. intros _. repeat split; auto.
        exists score. split; [reflexivity | assumption].
    + split; [discriminate|]. intros (_ & _ & _ & s & Hs & _). discriminate.
  - split; [discriminate|]. intros (_ & _ & H & _). contradiction.
Qed.

(** ** Blood-pressure target *)

(** X1. Outside the thrombectomy window, or with hemorrhage on imaging,
    the blood-pressure target is the permissive one. *)
Theorem bp_target_permissive (self : StrokeAssessment) :
  is_within_thrombectomy_window self = false \/ hemorrhage_present self = true ->
  get_bp_management_target self
    = "Target BP < 220/120 mmHg (permissive hypertension)".
Proof.
  intros H. unfold get_bp_management_target. cbv zeta.
  destruct (String.eqb_spec (get_tpa_eligibility_status self)
              "Potentially Eligible") as [E|_].
  { apply tpa_eligible_iff in E. destruct E as (Hw & Hh & _).
    destruct H as [H|H]; [|congruence].
    apply outside_thrombectomy_outside_tpa in H. congruence. }
  destruct (String.eqb_spec (get_thrombectomy_candidacy self)
              "Potentially Candidate") as [E|_]; [|reflexivity].
  apply candidate_iff in E. destruct E as (Hw & Hh & _).
  destruct H; congruence.
Qed.

Lemma bp_target_permissive_witness :
  get_bp_management_target bleed_no_lvo
    = "Target BP < 220/120 mmHg (permissive hypertension)".
Proof.
  apply (bp_target_permissive bleed_no_lvo). right. reflexivity.
Defined.

(** X2. The tPA blood-pressure target is given exactly when the patient is
    inside the tPA window, without hemorrhage, with any recorded blood
    pressure at most 185/110, and without any contraindication flag. *)
Theorem bp_target_for_tpa_iff (self : StrokeAssessment) :
  get_bp_management_target self = "Target BP < 185/110 mmHg (for tPA)"
  <-> is_within_tpa_window self = true
      /\ hemorrhage_present self = false
      /\ (forall v, systolic_bp (patient self) = Some v -> v <= 185)
      /\ (forall v, diastolic_bp (patient self) = Some v -> v <= 110)
      /\ recent_surgery self = false
      /\ prior_stroke_head_trauma self = false
      /\ gi_urinary_hemorrhage self = false
      /\ low_platelets self = false
      /\ elevated_inr self = false
      /\ current_anticoagulant_use self = false.
Proof.
  rewrite <- !known_above_false, <- tpa_eligible_iff.
  unfold get_bp_management_target. cbv zeta.
  destruct (String.eqb_spec (get_tpa_eligibility_status self)
              "Potentially Eligible") as [E|E].
  - split; [intros _; exact E | reflexivity].
  - split; [|contradiction].
    destruct (get_thrombectomy_candidacy self =? "Potentially Candidate")%string;
      discriminate.
Qed.

(** ** Stroke-center level and transfer *)

(** X3. The comprehensive center is recommended exactly when the patient is
    inside the 6-hour window, without hemorrhage, with LVO status PRESENT and
    a recorded ASPECTS of at least 6. *)
Theorem comprehensive_center_iff (self : StrokeAssessment) :
  get_stroke_center_recommendation self
    = "Comprehensive Stroke Center (CSC) recommended for thrombectomy."
  <-> is_within_thrombectomy_window self = true
      /\ hemorrhage_present self = false
      /\ lvo_status self = "PRESENT"
      /\ exists score, aspects_score self = Some score /\ 6 <= score.
Proof.
  rewrite <- candidate_iff.
  unfold get_stroke_center_recommendation. cbv zeta.
  destruct (String.eqb_spec (get_thrombectomy_candidacy self)
              "Potentially Candidate") as [E|E].
  - split; [intros _; exact E | reflexivity].
  - split; [|contradiction].
    destruct (calculate_nihss_total_score self) as [n|];
      [destruct (n >=? 5)|]; discriminate.
Qed.

(** X4. With any NIHSS item missing, a patient who is not a thrombectomy
    candidate is sent to the general hospital level, whatever the recorded
    items add up to. *)
Theorem incomplete_nihss_general_hospital (self : StrokeAssessment) :
  In None (nihss_components self) ->
  get_thrombectomy_candidacy self <> "Potentially Candidate" ->
  get_stroke_center_recommendation self
    = "Acute Stroke Ready Hospital (ASRH) or general hospital for initial stabilization.".
Proof.
  intros Hmiss Hnot. unfold get_stroke_center_recommendation. cbv zeta.
  apply String.eqb_neq in Hnot. rewrite Hnot.
  apply nihss_loop_unknown with (total := 0) in Hmiss.
  unfold calculate_nihss_total_score. now rewrite Hmiss.
Qed.

Lemma incomplete_nihss_general_hospital_witness :
  get_stroke_center_recommendation severe_incomplete
    = "Acute Stroke Ready Hospital (ASRH) or general hospital for initial stabilization.".
Proof.
  apply (incomplete_nihss_general_hospital severe_incomplete).
  - simpl. tauto.
  - vm_compute. discriminate.
Defined.

Lemma center_cases (self : StrokeAssessment) :
  get_stroke_center_recommendation self
    = "Comprehensive Stroke Center (CSC) recommended for thrombectomy."
  \/ get_stroke_center_recommendation self
    = "Primary Stroke Center (PSC) recommended for IV thrombolysis and stroke care."
  \/ get_stroke_center_recommendation self
    = "Acute Stroke Ready Hospital (ASRH) or general hospital for initial stabilization.".
Proof.
  unfold get_stroke_center_recommendation. cbv zeta.
  destruct (get_thrombectomy_candidacy self =? "Potentially Candidate")%string;
    [now left|].
  destruct (calculate_nihss_total_score self) as [n|];
    [destruct (n >=? 5)|]; auto.
Qed.

(** X5. The transfer advice follows the center level one to one: the text
    search in the recommendation never matches the wrong level. *)
Theorem transfer_follows_center (self : StrokeAssessment) :
  (get_transfer_recommendation self
     = "Consider immediate transfer to a Comprehensive Stroke Center (CSC) for advanced care."
   <-> get_stroke_center_recommendation self
       = "Comprehensive Stroke Center (CSC) recommended for thrombectomy.")
  /\ (get_transfer_recommendation self
        = "Consider transfer to a Primary Stroke Center (PSC) if not at one."
      <-> get_stroke_center_recommendation self
          = "Primary Stroke Center (PSC) recommended for IV thrombolysis and stroke care.")
  /\ (get_transfer_recommendation self
        = "No immediate transfer recommended based on current findings."
      <-> get_stroke_center_recommendation self
          = "Acute Stroke Ready Hospital (ASRH) or general hospital for initial stabilization.").
Proof.
  unfold get_transfer_recommendation. cbv zeta.
  destruct (center_cases self) as [E|[E|E]]; rewrite E;
    vm_compute; repeat split; intros H; try reflexivity; discriminate H.
Qed.

(** ** Missing last-known-well time *)

(** X6. Without a last-known-well time every derived recommendation is the
    conservative one: outside both windows, permissive blood pressure, and
    neither the comprehensive center nor a transfer to it. *)
Theorem missing_lkw_is_conservative (self : StrokeAssessment) :
  last_known_well_time (patient self) = None ->
  get_tpa_eligibility_status self = "Not Eligible (Outside Time Window)"
  /\ get_thrombectomy_candidacy self = "Not Candidate (Outside Time Window)"
  /\ get_bp_management_target self
       = "Target BP < 220/120 mmHg (permissive hypertension)"
  /\ get_stroke_center_recommendation self
       <> "Comprehensive Stroke Center (CSC) recommended for thrombectomy."
  /\ get_transfer_recommendation self
       <> "Consider immediate transfer to a Comprehensive Stroke Center (CSC) for advanced care.".
Proof.
  intros H.
  assert (Hh : get_time_since_lkw_hours self = None).
  { unfold get_time_since_lkw_hours, calculate_time_since_lkw. now rewrite H. }
  assert (Et : get_tpa_eligibility_status self
                 = "Not Eligible (Outside Time Window)").
  { unfold get_tpa_eligibility_status, is_within_tpa_window. now rewrite Hh. }
  assert (Ec : get_thrombectomy_candidacy self
                 = "Not Candidate (Outside Time Window)").
  { unfold get_thrombectomy_candidacy, is_within_thrombectomy_window.
    now rewrite Hh. }
  split; [exact Et|]. split; [exact Ec|].
  unfold get_transfer_recommendation, get_bp_management_target,
    get_stroke_center_recommendation.
  rewrite Et, Ec. cbv zeta.
  split; [reflexivity|].
  destruct (calculate_nihss_total_score self) as [n|];
    [destruct (n >=? 5)|]; vm_compute; split; discriminate.
Qed.

Lemma missing_lkw_is_conservative_witness :
  get_bp_management_target bleed_no_lkw
    = "Target BP < 220/120 mmHg (permissive hypertension)".
Proof.
  apply (missing_lkw_is_conservative bleed_no_lkw). reflexivity.
Defined.

(** ** Critical time targets *)



Lemma wall_add_in_range (w n : Z) :
  0 <= w -> 0 <= n -> w + timedelta_minutes n < wall_end ->
  wall_add w (timedelta_minutes n) = Some (w + timedelta_minutes n).
Proof.
  intros Hw Hn Hlt. unfold wall_add. cbv zeta.
  assert (0 <= timedelta_minutes n) by (unfold timedelta_minutes; lia).
  destruct (Z.leb_spec 0 (w + timedelta_minutes n)); [|lia].
  destruct (Z.ltb_spec (w + timedelta_minutes n) wall_end); [|lia].
  reflexivity.
Qed.

Lemma wall_add_overflow (w d : Z) :
  wall_end <= w + d -> wall_add w d = None.
Proof.
  intros H. unfold wall_add. cbv zeta.
  destruct (Z.ltb_spec (w + d) wall_end); [lia|].
  now rewrite andb_false_r.
Qed.

(** What the method returns when the three additions stay in range. *)
Lemma time_targets_in_range (utcoffset : timedelta) (self : StrokeAssessment) :
  0 <= wall_clock utcoffset (arrival_time (patient self)) ->
  wall_clock utcoffset (arrival_time (patient self)) + timedelta_minutes 90
    < wall_end ->
  get_critical_time_targets utcoffset self
  = Some
      [ ("Door-to-CT Target",
          strftime_HM (wall_clock utcoffset (arrival_time (patient self))
                       + timedelta_minutes 20));
        ("Door-to-Needle (tPA) Target",
          strftime_HM (wall_clock utcoffset (arrival_time (patient self))
                       + timedelta_minutes 60));
        ("Door-to-Groin Puncture Target",
          strftime_HM (wall_clock utcoffset (arrival_time (patient self))
                       + timedelta_minutes 90)) ].
Proof.
  intros H0 H90. unfold get_critical_time_targets, datetime_bool. cbv zeta.
  unfold timedelta_minutes in H90.
  rewrite !wall_add_in_range by (unfold timedelta_minutes; lia).
  reflexivity.
Qed.



(** Arrival at 23:50:30 UTC: every target falls on the next day and reads
    as an early-morning time. *)
Example late_arrival_targets :
  get_critical_time_targets 0 late_arrival
  = Some [ ("Door-to-CT Target", "00:10");
           ("Door-to-Needle (tPA) Target", "00:50");
           ("Door-to-Groin Puncture Target", "01:20") ].
Proof. vm_compute. reflexivity. Qed.

(** The same targets for the instant 21:50:10 UTC of the next day when the
    datetime is carried two hours ahead of UTC. *)
Example late_arrival_offset_targets :
  get_critical_time_targets (120 * 60000000) late_arrival_next_day
  = Some [ ("Door-to-CT Target", "00:10");
           ("Door-to-Needle (tPA) Target", "00:50");
           ("Door-to-Groin Puncture Target", "01:20") ].
Proof. vm_compute. reflexivity. Qed.

(** X16. For an arrival that is a valid datetime, the method fails with the
    overflow of its last addition exactly when the arrival reads less than
    90 minutes before the end of year 9999; otherwise it returns its three
    targets. *)
Theorem time_targets_overflow_iff (utcoffset : timedelta)
    (self : StrokeAssessment) :
  0 <= wall_clock utcoffset (arrival_time (patient self)) < wall_end ->
  (get_critical_time_targets utcoffset self = None
   <-> wall_end
       <= wall_clock utcoffset (arrival_time (patient self))
          + timedelta_minutes 90).
Proof.
  intros [H0 Hend]. split.
  - intros H.
    destruct (Z.lt_ge_cases
                (wall_clock utcoffset (arrival_time (patient self))
                 + timedelta_minutes 90) wall_end) as [Hlt|Hge];
      [|exact Hge].
    rewrite (time_targets_in_range utcoffset self H0 Hlt) in H. discriminate.
  - intros H. unfold get_critical_time_targets, datetime_bool. cbv zeta.
    rewrite (wall_add_overflow _ (timedelta_minutes 90) H).
    destruct (wall_add _ (timedelta_minutes 20)); [|reflexivity].
    destruct (wall_add _ (timedelta_minutes 60)); reflexivity.
Qed.

Lemma time_targets_overflow_iff_witness :
  get_critical_time_targets 0 arrival_near_datetime_max = None.
Proof.
  apply (proj2 (time_targets_overflow_iff 0 arrival_near_datetime_max
                  ltac:(vm_compute; split; [discriminate | reflexivity]))).
  vm_compute. discriminate.
Defined.

(** ** NIHSS and RACE together *)

(** X8. A known NIHSS total makes the RACE score known. *)
Theorem nihss_known_race_known (self : StrokeAssessment) (total : Z) :
  calculate_nihss_total_score self = Some total ->
  exists race, calculate_race_score self = Some race.
Proof.
  intros H. destruct (calculate_race_score self) as [r|] eqn:E.
  - now exists r.
  - exfalso. apply race_unknown in E.
    assert (Hin : In None (nihss_components self)).
    { unfold required_race_components in E. unfold nihss_components.
      simpl in *. intuition. }
    apply nihss_loop_unknown with (total := 0) in Hin.
    unfold calculate_nihss_total_score in H. congruence.
Qed.

Lemma nihss_known_race_known_witness :
  exists race, calculate_race_score seen_at_3h = Some race.
Proof.
  apply (nihss_known_race_known seen_at_3h 0). reflexivity.
Defined.

Ltac split_ifs :=
  repeat match goal with
         | |- context [if ?c then _ else _] => destruct c eqn:?
         end.

Ltac to_arith :=
  repeat match goal with
         | H : (_ =? _) = true |- _ => apply Z.eqb_eq in H
         | H : (_ =? _) = false |- _ => apply Z.eqb_neq in H
         | H : (_ >=? _) = true |- _ => rewrite Z.geb_leb in H; apply Z.leb_le in H
         | H : (_ >=? _) = false |- _ => rewrite Z.geb_leb in H; apply Z.leb_gt in H
         end.

(** X9. With no negative sub-score, the RACE score never exceeds the NIHSS
    total. *)
Theorem race_at_most_nihss (self : StrokeAssessment) (total race : Z) :
  Forall (fun c => forall v, c = Some v -> 0 <= v) (nihss_components self) ->
  calculate_nihss_total_score self = Some total ->
  calculate_race_score self = Some race ->
  race <= total.
Proof.
  unfold calculate_nihss_total_score, calculate_race_score,
    required_race_components, nihss_components, motor_steps.
  intros Hpos.
  repeat match goal with
         | H : Forall _ (_ :: _) |- _ =>
             let H1 := fresh "P" in
             apply Forall_cons_iff in H; destruct H as [H1 H]
         end.
  clear Hpos.
  destruct (nihss_1a_loc_alert self) as [v1|]; [|discriminate].
  destruct (nihss_1b_loc_questions self) as [v2|]; [|discriminate].
  destruct (nihss_1c_loc_commands self) as [v3|]; [|discriminate].
  destruct (nihss_2_best_gaze self) as [v4|]; [|discriminate].
  destruct (nihss_3_visual_field self) as [v5|]; [|discriminate].
  destruct (nihss_4_facial_palsy self) as [v6|]; [|discriminate].
  destruct (nihss_5a_motor_left_arm self) as [v7|]; [|discriminate].
  destruct (nihss_5b_motor_right_arm self) as [v8|]; [|discriminate].
  destruct (nihss_6a_motor_left_leg self) as [v9|]; [|discriminate].
  destruct (nihss_6b_motor_right_leg self) as [v10|]; [|discriminate].
  destruct (nihss_7_limb_ataxia self) as [v11|]; [|discriminate].
  destruct (nihss_8_sensory self) as [v12|]; [|discriminate].
  destruct (nihss_9_best_language self) as [v13|]; [|discriminate].
  destruct (nihss_10_dysarthria self) as [v14|]; [|discriminate].
  destruct (nihss_11_extinction_inattention self) as [v15|]; [|discriminate].
  repeat match goal with
         | H : forall v, Some ?x = Some v -> _ |- _ => specialize (H x eq_refl)
         end.
  simpl. intros Ht Hr. injection Ht as <-. injection Hr as <-.
  split_ifs; to_arith; lia.
Qed.

Lemma race_at_most_nihss_witness :
  calculate_nihss_total_score worst_everything = Some 42
  /\ calculate_race_score worst_everything = Some 11
  /\ 11 <= 42.
Proof.
  split; [reflexivity|]. split; [reflexivity|].
  apply (race_at_most_nihss worst_everything 42 11).
  - repeat constructor; intros v E; injection E as <-; lia.
  - reflexivity.
  - reflexivity.
Defined.

(** X10. A gaze score outside 1 and 2 adds nothing: raising the gaze item from
    2 to 3 or more lowers the RACE score by 2. *)
Theorem race_gaze_above_scale (a b : StrokeAssessment) (race gaze : Z) :
  calculate_race_score a = Some race ->
  nihss_2_best_gaze a = Some 2 ->
  nihss_2_best_gaze b = Some gaze ->
  3 <= gaze ->
  nihss_4_facial_palsy b = nihss_4_facial_palsy a ->
  nihss_5a_motor_left_arm b = nihss_5a_motor_left_arm a ->
  nihss_5b_motor_right_arm b = nihss_5b_motor_right_arm a ->
  nihss_6a_motor_left_leg b = nihss_6a_motor_left_leg a ->
  nihss_6b_motor_right_leg b = nihss_6b_motor_right_leg a ->
  nihss_9_best_language b = nihss_9_best_language a ->
  nihss_11_extinction_inattention b = nihss_11_extinction_inattention a ->
  calculate_race_score b = Some (race - 2).
Proof.
  unfold calculate_race_score, required_race_components.
  intros Ha Ga Gb Hg -> -> -> -> -> -> ->.
  rewrite Ga in Ha. rewrite Gb. revert Ha. cbv zeta.
  destruct (nihss_4_facial_palsy a), (nihss_5a_motor_left_arm a),
    (nihss_5b_motor_right_arm a), (nihss_6a_motor_left_leg a),
    (nihss_6b_motor_right_leg a), (nihss_9_best_language a),
    (nihss_11_extinction_inattention a); simpl; try discriminate.
  intros Ha. injection Ha as <-.
  destruct (Z.eqb_spec gaze 1); [lia|].
  destruct (Z.eqb_spec gaze 2); [lia|].
  f_equal. split_ifs; lia.
Qed.

Lemma race_gaze_above_scale_witness :
  calculate_race_score gaze_three = Some (11 - 2).
Proof.
  apply (race_gaze_above_scale worst_deficits gaze_three 11 3);
    try reflexivity; lia.
Defined.

(** ** Eligibility, candidacy and imaging together *)

(** X11. A patient found potentially eligible for tPA is never turned down for
    thrombectomy on the time window or on hemorrhage: the candidacy is
    decided by the LVO status and the ASPECTS score alone. *)
Theorem tpa_eligible_candidacy (self : StrokeAssessment) :
  get_tpa_eligibility_status self = "Potentially Eligible" ->
  get_thrombectomy_candidacy self
  = if negb (lvo_status self =? "PRESENT")%string
    then "Not Candidate (No LVO Detected)"
    else match aspects_score self with
         | None => "Pending (ASPECTS Score Missing)"
         | Some score =>
             if score <? 6 then "Not Candidate (ASPECTS < 6)"
             else "Potentially Candidate"
         end.
Proof.
  intros H. apply tpa_eligible_iff in H. destruct H as (Hw & Hh & _).
  unfold get_thrombectomy_candidacy.
  destruct (is_within_thrombectomy_window self) eqn:E.
  - now rewrite Hh.
  - apply outside_thrombectomy_outside_tpa in E. congruence.
Qed.

Lemma tpa_eligible_candidacy_witness :
  get_thrombectomy_candidacy no_bleed_no_lvo = "Not Candidate (No LVO Detected)".
Proof.
  apply (tpa_eligible_candidacy no_bleed_no_lvo). reflexivity.
Defined.

(** X12. A thrombectomy candidate never has an ASPECTS reading of severe,
    invalid or unavailable. *)
Theorem candidate_aspects_reading (self : StrokeAssessment) :
  get_thrombectomy_candidacy self = "Potentially Candidate" ->
  get_aspects_interpretation self = "Normal CT scan (no early ischemic changes)."
  \/ get_aspects_interpretation self = "Mild early ischemic changes."
  \/ get_aspects_interpretation self = "Moderate early ischemic changes.".
Proof.
  intros H. apply candidate_iff in H.
  destruct H as (_ & _ & _ & score & Hs & Hle).
  unfold get_aspects_interpretation. rewrite Hs.
  destruct (score =? 10); [now left|].
  destruct (score >=? 8); [now right; left|].
  destruct (score >=? 5) eqn:E; [now right; right|].
  rewrite Z.geb_leb in E. apply Z.leb_gt in E. lia.
Qed.

Lemma candidate_aspects_reading_witness :
  get_aspects_interpretation seen_at_3h = "Normal CT scan (no early ischemic changes)."
  \/ get_aspects_interpretation seen_at_3h = "Mild early ischemic changes."
  \/ get_aspects_interpretation seen_at_3h = "Moderate early ischemic changes.".
Proof.
  apply (candidate_aspects_reading seen_at_3h). vm_compute. reflexivity.
Defined.

(** ** Hours since last known well *)

Section FloatOpp.

Import PyFloat.

Lemma binary_round_aux_opp s m e l :
  binary_round_aux prec emax (negb s) m e l
  = SFopp (binary_round_aux prec emax s m e l).
Proof.
  unfold binary_round_aux.
  destruct (shr_fexp prec emax m e l) as [mrs' e'].
  destruct (shr_fexp prec emax _ e' loc_Exact) as [mrs'' e''].
  destruct (shr_m mrs''); try reflexivity.
  destruct (e'' <=? emax - prec); reflexivity.
Qed.

Lemma int_truediv_opp a b :
  a <> 0 -> int_truediv (- a) b = SFopp (int_truediv a b).
Proof.
  intros Ha. unfold int_truediv.
  destruct a as [|p|p]; [congruence| |]; simpl Z.opp; cbv iota;
    change (Z.abs (Z.neg p)) with (Z.pos p);
    change (Z.abs (Z.pos p)) with (Z.pos p);
    destruct (SFdiv_core_binary prec emax (Z.pos p) 0 b 0) as [[q e] l].
  - apply (binary_round_aux_opp false).
  - change (Z.pos p <? 0) with (negb true).
    change (Z.neg p <? 0) with true.
    now rewrite binary_round_aux_opp.
Qed.

Lemma div_opp x m e :
  div (SFopp x) (S754_finite false m e) = SFopp (div x (S754_finite false m e)).
Proof.
  destruct x as [s|s| |s mx ex]; simpl; try reflexivity;
    try (destruct s; reflexivity).
  unfold div, SFdiv.
  destruct (SFdiv_core_binary prec emax (Z.pos mx) ex (Z.pos m) e) as [[q e'] l].
  rewrite !xorb_false_r. apply binary_round_aux_opp.
Qed.

Lemma round2_opp x : round2 (SFopp x) = SFopp (round2 x).
Proof.
  destruct x as [s|s| |s m e]; simpl; try reflexivity.
  destruct (hundredths m e) as [|k|k]; try reflexivity;
    match goal with
    | |- context [SFdiv_core_binary ?p ?em ?a ?b ?c ?d] =>
        destruct (SFdiv_core_binary p em a b c d) as [[q e'] l]
    end; apply binary_round_aux_opp.
Qed.

End FloatOpp.

(** X13. Exchanging the last-known-well time and the assessment time negates
    the hours: they are the same number with the opposite sign. *)
Theorem hours_antisymmetric (a b : StrokeAssessment) (t1 t2 : datetime) :
  last_known_well_time (patient a) = Some t1 ->
  assessment_time a = t2 ->
  last_known_well_time (patient b) = Some t2 ->
  assessment_time b = t1 ->
  get_time_since_lkw_hours b = option_map SFopp (get_time_since_lkw_hours a).
Proof.
  intros La Aa Lb Ab.
  destruct (Z.eq_dec t1 t2) as [->|Hne].
  - unfold get_time_since_lkw_hours.
    rewrite (time_since_lkw_value a _ La), (time_since_lkw_value b _ Lb).
    rewrite Aa, Ab, Z.sub_diag. reflexivity.
  - rewrite (hours_value a t1 La) by congruence.
    rewrite (hours_value b t2 Lb) by congruence.
    rewrite Aa, Ab. simpl. f_equal.
    replace (t1 - t2) with (- (t2 - t1)) by lia.
    unfold total_seconds. rewrite int_truediv_opp by lia.
    unfold f3600. now rewrite div_opp, round2_opp.
Qed.

Lemma hours_antisymmetric_witness :
  get_time_since_lkw_hours seen_before_lkw
  = option_map SFopp (get_time_since_lkw_hours no_bleed_no_lvo).
Proof.
  apply (hours_antisymmetric no_bleed_no_lvo seen_before_lkw 0 one_hour);
    reflexivity.
Defined.

(** X14. Whenever the hours are defined they are a proper number, never a
    NaN, and carry the sign of the elapsed time. *)
Theorem hours_sign (self : StrokeAssessment) (lkw : datetime) (h : PyFloat.float) :
  last_known_well_time (patient self) = Some lkw ->
  get_time_since_lkw_hours self = Some h ->
  h <> S754_nan
  /\ PyFloat.signed (assessment_time self <? lkw) h.
Proof.
  intros L H.
  destruct (Z.eq_dec lkw (assessment_time self)) as [->|Hne].
  - unfold get_time_since_lkw_hours in H.
    rewrite (time_since_lkw_value self _ L), Z.sub_diag in H. discriminate.
  - rewrite (hours_value self lkw L Hne) in H. injection H as <-.
    assert (S : PyFloat.signed (assessment_time self <? lkw)
                  (PyFloat.round2
                     (PyFloat.div (total_seconds (assessment_time self - lkw))
                        f3600))).
    { apply round2_signed, div_finite_pos_signed.
      replace (assessment_time self <? lkw)
        with (assessment_time self - lkw <? 0).
      - apply int_truediv_signed; lia.
      - destruct (Z.ltb_spec (assessment_time self - lkw) 0),
          (Z.ltb_spec (assessment_time self) lkw); try reflexivity; lia. }
    split; [|exact S]. intros E. rewrite E in S. exact S.
Qed.

Lemma hours_sign_witness :
  exists h, get_time_since_lkw_hours seen_at_3h = Some h
            /\ h <> S754_nan /\ PyFloat.signed false h.
Proof.
  eexists. split; [reflexivity|].
  apply (hours_sign seen_at_3h 0); reflexivity.
Defined.

(** ** Sign of the tPA dose *)

Lemma mul_finite_pos_signed (s : bool) (x : PyFloat.float) (m : positive) (e : Z) :
  PyFloat.signed s x -> PyFloat.signed s (PyFloat.mul x (S754_finite false m e)).
Proof.
  intros H. destruct x as [sx|sx| |sx mx ex]; simpl in *; subst;
    try (destruct s; reflexivity); try contradiction.
  unfold PyFloat.mul, SFmul. rewrite xorb_false_r.
  apply binary_round_aux_signed. lia.
Qed.

Lemma float_of_Decimal_signed (w : Decimal) :
  PyFloat.signed (dec_digits w <? 0) (float_of_Decimal w).
Proof.
  unfold float_of_Decimal.
  destruct (Z.eq_dec (dec_digits w) 0) as [E|E].
  - rewrite E. reflexivity.
  - apply int_truediv_signed; [exact E|]. apply Z.pow_pos_nonneg; lia.
Qed.

Lemma min_signed (s : bool) (x : PyFloat.float) (m : positive) (e : Z) :
  PyFloat.signed s x ->
  PyFloat.signed s (PyFloat.min x (S754_finite false m e)).
Proof.
  intros H. unfold PyFloat.min.
  destruct (PyFloat.ltb (S754_finite false m e) x) eqn:E; [|exact H].
  destruct s; [|reflexivity].
  destruct x as [sx|sx| |sx mx ex]; simpl in H; subst; try contradiction;
    discriminate E.
Qed.

(** X15. For a weight other than zero the dose has the sign of the weight:
    never negative for a positive weight, and negative, without any check,
    for a negative weight. *)
Theorem dose_sign (self : StrokeAssessment) (w : Decimal) :
  weight_kg (patient self) = Some w ->
  dec_digits w <> 0 ->
  exists d, calculate_tpa_dose self = Some d
            /\ PyFloat.signed (dec_digits w <? 0) d.
Proof.
  intros H _. unfold calculate_tpa_dose. rewrite H. cbv zeta.
  eexists. split; [reflexivity|].
  unfold f90, f0_9.
  apply min_signed, mul_finite_pos_signed, float_of_Decimal_signed.
Qed.

Lemma dose_sign_witness :
  exists d, calculate_tpa_dose (weighing (Some (mkDecimal (-5000) 2))) = Some d
            /\ PyFloat.signed true d.
Proof.
  apply (dose_sign (weighing (Some (mkDecimal (-5000) 2)))
           (mkDecimal (-5000) 2)).
  - reflexivity.
  - simpl. discriminate.
Defined.
